(** * A shallow embedding of [s28382_2025-2.py] (class [NCBIRetriever] and [main]).

    The Python object, the printed output, the remote calls issued, the
    files written and the Python lists reachable from the caller are kept in
    one [world]; the methods are programs of a state and exception monad over
    it.  The remote service (Entrez) and the GenBank parser are parameters of
    the section [Retriever]: every theorem holds for every behaviour of them. *)

From Stdlib Require Import String Ascii List ZArith Lia Bool Sorting.Permutation Sorting.Sorted.
From Stdlib Require Import DecimalString.
Import ListNotations.
Open Scope Z_scope.
Open Scope string_scope.

(** ** Data *)

(** A Biopython [SeqRecord], with the fields the script reads. *)
Record SeqRecord := mkSeqRecord {
  rec_id : string;
  rec_seq : string;
  rec_description : string
}.

(** [len(rec.seq)] *)
Definition seq_len (r : SeqRecord) : nat := String.length r.(rec_seq).

(** Python exceptions, by their message. *)
Definition exn := string.

Inductive res (A : Type) :=
| Ok (a : A)
| Raise (e : exn).
Arguments Ok {A} a.
Arguments Raise {A} e.

(** [str(int)] *)
Definition py_str_int (z : Z) : string := NilZero.string_of_int (Z.to_int z).

(** Reply of [Entrez.read] on an [esearch] handle: a dictionary whose keys
    may be missing.  [Count] is [None] when [int(search_results["Count"])]
    raises (missing key or non-numeric value). *)
Record SearchReply := mkSearchReply {
  sr_Count : option Z;
  sr_WebEnv : option string;
  sr_QueryKey : option string
}.

(** Arguments of the [Entrez.efetch] call of [fetch_records] (db, rettype and
    retmode are the constants "nucleotide", "gb", "text"). *)
Record FetchRequest := mkFetchRequest {
  fr_retstart : Z;
  fr_retmax : Z;
  fr_webenv : string;
  fr_query_key : string
}.

(** Remote calls, in the order they are issued. *)
Inductive call :=
| CallTaxonomy (taxid : string)
| CallESearch (term : string)
| CallEFetch (req : FetchRequest).

(** A cell of a pandas DataFrame. *)
Inductive cell :=
| CStr (s : string)
| CInt (z : Z).

Record Plot := mkPlot {
  plot_x : list string;
  plot_y : list Z;
  plot_title : string;
  plot_xlabel : string;
  plot_ylabel : string
}.

Inductive file :=
| CsvFile (rows : list (list cell))
| PngFile (p : Plot).

(** The attributes of an [NCBIRetriever] instance set by [search_taxid];
    [None] means the attribute does not exist ([hasattr] is false). *)
Record retriever := mkRetriever {
  webenv : option string;
  query_key : option string;
  count : option Z
}.

Definition new_retriever : retriever := mkRetriever None None None.

(** A reference to a Python list. *)
Definition ref := nat.

Record world := mkWorld {
  self : retriever;
  stdout : list string;
  calls : list call;
  files : list (string * file);
  heap : list (list SeqRecord)
}.

(** ** The monad *)

Definition M (A : Type) := world -> res A * world.

Definition ret {A} (a : A) : M A := fun w => (Ok a, w).
Definition raise {A} (e : exn) : M A := fun w => (Raise e, w).

Definition bind {A B} (m : M A) (f : A -> M B) : M B :=
  fun w => match m w with
           | (Ok a, w') => f a w'
           | (Raise e, w') => (Raise e, w')
           end.

Notation "x <- m ;; k" := (bind m (fun x => k))
  (at level 61, m at next level, right associativity).
Notation "m ;;; k" := (bind m (fun _ => k))
  (at level 61, right associativity).

(** [try: m except Exception as e: h(e)] *)
Definition try_except {A} (m : M A) (h : exn -> M A) : M A :=
  fun w => match m w with
           | (Ok a, w') => (Ok a, w')
           | (Raise e, w') => h e w'
           end.

Definition print (s : string) : M unit :=
  fun w => (Ok tt, mkWorld w.(self) (w.(stdout) ++ [s]) w.(calls) w.(files) w.(heap)).

Definition get_self : M retriever := fun w => (Ok w.(self), w).

Definition put_self (r : retriever) : M unit :=
  fun w => (Ok tt, mkWorld r w.(stdout) w.(calls) w.(files) w.(heap)).

(** A remote call: it is issued (logged) and then answers or raises. *)
Definition remote {A} (c : call) (answer : res A) : M A :=
  fun w => (answer, mkWorld w.(self) w.(stdout) (w.(calls) ++ [c]) w.(files) w.(heap)).

Definition lift {A} (r : res A) : M A := fun w => (r, w).

(** A new Python list object. *)
Definition alloc (l : list SeqRecord) : M ref :=
  fun w => (Ok (length w.(heap)),
            mkWorld w.(self) w.(stdout) w.(calls) w.(files) (w.(heap) ++ [l])).

Definition deref (r : ref) : M (list SeqRecord) :=
  fun w => match nth_error w.(heap) r with
           | Some l => (Ok l, w)
           | None => (Raise "dangling reference", w)
           end.

(** Writing a file overwrites any previous file of that name. *)
Definition write_file (name : string) (f : file) : M unit :=
  fun w => (Ok tt, mkWorld w.(self) w.(stdout) w.(calls)
                      ((name, f) :: filter (fun p => negb (String.eqb (fst p) name)) w.(files))
                      w.(heap)).

(** [d[key]] on a dictionary key that may be missing. *)
Definition getitem {A} (key : string) (o : option A) : M A :=
  match o with
  | Some a => ret a
  | None => raise ("KeyError: " ++ key)
  end.

(** ** Sorting: [sorted(records, key=..., reverse=True)]

    CPython's [list.sort] with [reverse=True] reverses the list, sorts it
    with a stable ascending sort on the keys (comparing with [<] only), and
    reverses the result.  Any stable ascending sort gives the same list; we
    use insertion sort. *)

Section Sort.
Variable key : SeqRecord -> nat.

(** Insert [x] before the first element whose key is not smaller. *)
Fixpoint insort (x : SeqRecord) (l : list SeqRecord) : list SeqRecord :=
  match l with
  | [] => [x]
  | y :: ys => if Nat.ltb (key y) (key x) then y :: insort x ys else x :: y :: ys
  end.

Fixpoint stable_sort (l : list SeqRecord) : list SeqRecord :=
  match l with
  | [] => []
  | x :: xs => insort x (stable_sort xs)
  end.

Definition py_sorted_reverse (l : list SeqRecord) : list SeqRecord :=
  rev (stable_sort (rev l)).
End Sort.

(** ** pandas: [DataFrame(data, columns=...).to_csv(filename, index=...)] *)

Record DataFrame := mkDataFrame {
  df_columns : list string;
  df_data : list (list cell)
}.

Fixpoint number_rows (i : Z) (rows : list (list cell)) : list (list cell) :=
  match rows with
  | [] => []
  | r :: rs => (CInt i :: r) :: number_rows (i + 1) rs
  end.

(** The rows written: the header, then the data; with [index=True] an
    unnamed index column comes first. *)
Definition to_csv_rows (df : DataFrame) (index : bool) : list (list cell) :=
  let header := map CStr df.(df_columns) in
  if index then (CStr "" :: header) :: number_rows 0 df.(df_data)
  else header :: df.(df_data).

(** Text of one row, with the csv module's minimal quoting. *)
Definition dquote : ascii := ascii_of_nat 34.

Fixpoint needs_quote (s : string) : bool :=
  match s with
  | EmptyString => false
  | String c s' =>
      (Ascii.eqb c ","%char || Ascii.eqb c dquote || Ascii.eqb c (ascii_of_nat 10)
       || Ascii.eqb c (ascii_of_nat 13) || needs_quote s')%bool
  end.

Fixpoint double_quotes (s : string) : string :=
  match s with
  | EmptyString => EmptyString
  | String c s' =>
      if Ascii.eqb c dquote then String c (String c (double_quotes s'))
      else String c (double_quotes s')
  end.

Definition csv_field (c : cell) : string :=
  match c with
  | CInt z => py_str_int z
  | CStr s => if needs_quote s then String dquote (double_quotes s ++ String dquote EmptyString)
              else s
  end.

Definition csv_line (row : list cell) : string :=
  String.concat "," (map csv_field row).

(** ** The methods of [NCBIRetriever] *)

Section Retriever.

(** [Entrez.read(Entrez.efetch(db="taxonomy", id=taxid, retmode="xml"))]:
    a list of taxa, each with its ["ScientificName"] entry if present. *)
Variable taxonomy_read : string -> res (list (option string)).
(** [Entrez.read(Entrez.esearch(db="nucleotide", term=term, usehistory="y"))] *)
Variable esearch_read : string -> res SearchReply.
(** [Entrez.efetch(db="nucleotide", rettype="gb", retmode="text", ...)] *)
Variable efetch_nucleotide : FetchRequest -> res string.
(** [list(SeqIO.parse(handle, "gb"))] *)
Variable parse_gb : string -> res (list SeqRecord).

(** The local [count] of the source is [cnt] here (the attribute is [count]). *)
Definition search_taxid (taxid : string) : M (option Z) :=
  print ("Searching for records with taxID: " ++ taxid) ;;;
  try_except
    (records <- remote (CallTaxonomy taxid) (taxonomy_read taxid) ;;
     rec0 <- (match records with
              | [] => raise "IndexError: list index out of range"
              | r :: _ => ret r
              end) ;;
     organism_name <- getitem "ScientificName" rec0 ;;
     print ("Organism: " ++ organism_name ++ " (TaxID: " ++ taxid ++ ")") ;;;
     let term := "txid" ++ taxid ++ "[Organism]" in
     search_results <- remote (CallESearch term) (esearch_read term) ;;
     cnt <- getitem "Count" search_results.(sr_Count) ;;
     print ("Found " ++ py_str_int cnt ++ " records for " ++ organism_name
            ++ " (TaxID: " ++ taxid ++ ")") ;;;
     if Z.eqb cnt 0 then ret None
     else
       (we <- getitem "WebEnv" search_results.(sr_WebEnv) ;;
        s <- get_self ;;
        put_self (mkRetriever (Some we) s.(query_key) s.(count)) ;;;
        qk <- getitem "QueryKey" search_results.(sr_QueryKey) ;;
        s <- get_self ;;
        put_self (mkRetriever s.(webenv) (Some qk) s.(count)) ;;;
        s <- get_self ;;
        put_self (mkRetriever s.(webenv) s.(query_key) (Some cnt)) ;;;
        ret (Some cnt)))
    (fun e => print ("Error searching TaxID " ++ taxid ++ ": " ++ e) ;;; ret None).

Definition fetch_records (start max_records : Z) : M ref :=
  s <- get_self ;;
  match s.(webenv), s.(query_key) with
  | Some we, Some qk =>
      try_except
        (let batch_size := Z.min max_records 500 in
         let req := mkFetchRequest start batch_size we qk in
         handle <- remote (CallEFetch req) (efetch_nucleotide req) ;;
         records <- lift (parse_gb handle) ;;
         alloc records)
        (fun e => print ("Error fetching records: " ++ e) ;;; alloc [])
  | _, _ =>
      print "No search results to fetch. Run search_taxid() first." ;;; alloc []
  end.

End Retriever.

(** [[rec for rec in records if min_len <= len(rec.seq) <= max_len]] *)
Fixpoint keep_by_length (min_len max_len : Z) (records : list SeqRecord) : list SeqRecord :=
  match records with
  | [] => []
  | rec :: rest =>
      if (Z.leb min_len (Z.of_nat (seq_len rec)) && Z.leb (Z.of_nat (seq_len rec)) max_len)%bool
      then rec :: keep_by_length min_len max_len rest
      else keep_by_length min_len max_len rest
  end.

Definition filter_by_length (records : ref) (min_len max_len : Z) : M ref :=
  l <- deref records ;;
  alloc (keep_by_length min_len max_len l).

Definition csv_columns : list string := ["Accession number"; "Length"; "Description"].

Definition generate_csv (records : ref) (filename : string) : M unit :=
  l <- deref records ;;
  let data := map (fun record => [CStr record.(rec_id); CInt (Z.of_nat (seq_len record));
                                  CStr record.(rec_description)]) l in
  write_file filename (CsvFile (to_csv_rows (mkDataFrame csv_columns data) false)) ;;;
  print ("Saved CSV report to " ++ filename).

Definition generate_plot (records : ref) (filename : string) : M unit :=
  l <- deref records ;;
  s <- alloc (py_sorted_reverse seq_len l) ;;
  sorted_records <- deref s ;;
  let args := map rec_id sorted_records in
  let lengths := map (fun r => Z.of_nat (seq_len r)) sorted_records in
  write_file filename (PngFile (mkPlot args lengths "GenBank Record Lengths"
                                       "Accession number" "Sequence length")) ;;;
  print ("Saved plot to " ++ filename).

(** ** [main] *)

(** Python truthiness of the value returned by [search_taxid] ([None] or an int). *)
Definition py_truthy (o : option Z) : bool :=
  match o with
  | None => false
  | Some z => negb (Z.eqb z 0)
  end.

Section Main.
Variable taxonomy_read : string -> res (list (option string)).
Variable esearch_read : string -> res SearchReply.
Variable efetch_nucleotide : FetchRequest -> res string.
Variable parse_gb : string -> res (list SeqRecord).

(** [main] from line 96 on: the prompts of lines 86-94 have been answered
    with [taxid], [min_len] and [max_len] (already parsed by [int]), and the
    retriever [self] of the world is the fresh [NCBIRetriever]. *)
Definition main_body (taxid : string) (min_len max_len : Z) : M unit :=
  count <- search_taxid taxonomy_read esearch_read taxid ;;
  if negb (py_truthy count) then print "No records found. Exiting."
  else
    (print (String (ascii_of_nat 10) "Fetching records...") ;;;
     all_records <- fetch_records efetch_nucleotide parse_gb 0 200 ;;
     l <- deref all_records ;;
     print ("Fetched " ++ py_str_int (Z.of_nat (length l)) ++ " records. Filtering by length...") ;;;
     filtered <- filter_by_length all_records min_len max_len ;;
     fl <- deref filtered ;;
     match fl with
     | [] => print "No records matched the length criteria."
     | _ :: _ =>
         let csv_file := "taxid_" ++ taxid ++ "_report.csv" in
         generate_csv filtered csv_file ;;;
         let plot_file := "taxid_" ++ taxid ++ "_plot.png" in
         generate_plot filtered plot_file
     end).

Definition main (taxid : string) (min_len max_len : Z) : M unit :=
  put_self new_retriever ;;; main_body taxid min_len max_len.
End Main.

(** ** Concrete remote behaviours, used by the examples below *)

Definition rec_A1 := mkSeqRecord "A1" "aaaaa" "first".
Definition rec_A2 := mkSeqRecord "A2" "aaaaaaaaaaaaaaa" "second".
Definition rec_A3 := mkSeqRecord "A3" "aaaaaaaaaaaaaaaaaaaaaaaaaaaaaa" "third".

Definition tax_ok (_ : string) : res (list (option string)) := Ok [Some "Homo sapiens"].
Definition tax_down (_ : string) : res (list (option string)) := Raise "HTTP Error 500".
Definition esearch_hits (n : Z) (_ : string) : res SearchReply :=
  Ok (mkSearchReply (Some n) (Some "WE1") (Some "1")).
Definition esearch_no_key (_ : string) : res SearchReply :=
  Ok (mkSearchReply (Some 3%Z) (Some "WE2") None).
Definition efetch_ok (_ : FetchRequest) : res string := Ok "LOCUS ...".
Definition efetch_down (_ : FetchRequest) : res string := Raise "HTTP Error 502".
Definition parse_three (_ : string) : res (list SeqRecord) := Ok [rec_A1; rec_A2; rec_A3].
Definition parse_bad (_ : string) : res (list SeqRecord) := Raise "ValueError: bad GenBank".

Definition tax_empty (_ : string) : res (list (option string)) := Ok [].

Definition world0 : world := mkWorld new_retriever [] [] [] [].

(** A world after a successful search. *)
Definition world_session : world :=
  mkWorld (mkRetriever (Some "WE1") (Some "1") (Some 3)) [] [] [] [].

(** The file currently stored under [name]. *)
Fixpoint find_file (name : string) (fs : list (string * file)) : option file :=
  match fs with
  | [] => None
  | (n, f) :: rest => if String.eqb n name then Some f else find_file name rest
  end.

Definition is_efetch (c : call) : bool :=
  match c with
  | CallEFetch _ => true
  | _ => false
  end.

(** The term [search_taxid] sends to [esearch]. *)
Definition search_term (taxid : string) : string := "txid" ++ taxid ++ "[Organism]".

Definition csv_row (record : SeqRecord) : list cell :=
  [CStr record.(rec_id); CInt (Z.of_nat (seq_len record)); CStr record.(rec_description)].

Definition plot_of (sorted_records : list SeqRecord) : Plot :=
  mkPlot (map rec_id sorted_records) (map (fun r => Z.of_nat (seq_len r)) sorted_records)
         "GenBank Record Lengths" "Accession number" "Sequence length".

Definition other_files (name : string) (fs : list (string * file)) : list (string * file) :=
  filter (fun p => negb (String.eqb (fst p) name)) fs.

(** The bounds test of the specification, as a proposition on one record. *)
Definition within_bounds (lo hi : Z) (r : SeqRecord) : Prop :=
  (lo <= Z.of_nat (seq_len r) <= hi)%Z.

Definition within_bounds_b (lo hi : Z) (r : SeqRecord) : bool :=
  if Z_le_dec lo (Z.of_nat (seq_len r)) then
    if Z_le_dec (Z.of_nat (seq_len r)) hi then true else false
  else false.

(** ** Proofs *)

Ltac unfold_monad :=
  unfold search_taxid, fetch_records, filter_by_length, generate_csv, generate_plot,
    try_except, bind, ret, raise, print, get_self, put_self, remote, lift, alloc,
    deref, write_file, getitem in *; cbn in *.

(** Case on the innermost stuck scrutinees (the answers of the remote
    service and of the parser, dictionary entries, tests). *)
Ltac split_matches :=
  repeat (match goal with
          | |- context [match ?x with _ => _ end] =>
              lazymatch x with
              | context [match _ with _ => _ end] => fail
              | _ => destruct x eqn:?
              end
          end; cbn in *).

(** *** General facts about the methods *)

Lemma search_taxid_frame tax es taxid w :
  let w' := snd (search_taxid tax es taxid w) in
  files w' = files w /\ heap w' = heap w /\
  exists cs, calls w' = (calls w ++ cs)%list /\ forallb (fun c => negb (is_efetch c)) cs = true.
Proof.
  destruct w as [s out cl fs hp]; unfold_monad.
  split_matches.
  all: split; [reflexivity | split; [reflexivity |]].
  all: eexists; split; [rewrite <- ?app_assoc; reflexivity | reflexivity].
Qed.

(** *** Fetching *)

Lemma fetch_records_calls ef pg start max_records w we qk :
  webenv (self w) = Some we -> query_key (self w) = Some qk ->
  calls (snd (fetch_records ef pg start max_records w)) =
  (calls w ++ [CallEFetch (mkFetchRequest start (Z.min max_records 500) we qk)])%list.
Proof.
  destruct w as [[we0 qk0 c] out cl fs hp]; cbn; intros -> ->.
  unfold_monad; split_matches; reflexivity.
Qed.

(** C1: without a stored session handle ([webenv] or [query_key] missing),
    [fetch_records] raises nothing, issues no remote call, prints its
    diagnostic and returns a new empty list. *)
Theorem fetch_records_without_session ef pg start max_records w
  (Hno : webenv (self w) = None \/ query_key (self w) = None) :
  fetch_records ef pg start max_records w =
  (Ok (length (heap w)),
   mkWorld (self w) (stdout w ++ ["No search results to fetch. Run search_taxid() first."])
           (calls w) (files w) (heap w ++ [[]])%list) /\
  nth_error (heap w ++ [[]])%list (length (heap w)) = Some [].
Proof.
  split.
  - destruct w as [[we qk c] out cl fs hp]; cbn in Hno; unfold_monad.
    destruct Hno as [-> | ->]; [reflexivity | destruct we; reflexivity].
  - rewrite nth_error_app2, Nat.sub_diag by lia; reflexivity.
Qed.

Lemma fetch_records_without_session_witness :
  fetch_records efetch_ok parse_three 0 100 world0 =
  (Ok 0%nat, mkWorld new_retriever ["No search results to fetch. Run search_taxid() first."]
                    [] [] [[]]) /\ nth_error [[]] 0 = @Some (list SeqRecord) [].
Proof.
  apply (fetch_records_without_session efetch_ok parse_three 0 100 world0).
  left; reflexivity.
Defined.

(** C2: with a session, [fetch_records] issues exactly one remote fetch, at
    offset [start], for a page of [min max_records 500] records; so the page
    never exceeds 500, and [max_records = 1000] asks for 500. *)
Theorem fetch_records_batch_cap ef pg start max_records w we qk
  (Hwe : webenv (self w) = Some we) (Hqk : query_key (self w) = Some qk) :
  let req := mkFetchRequest start (Z.min max_records 500) we qk in
  calls (snd (fetch_records ef pg start max_records w)) = (calls w ++ [CallEFetch req])%list /\
  fr_retmax req = Z.min max_records 500 /\
  fr_retmax req <= 500 /\
  (max_records = 1000 -> fr_retmax req = 500).
Proof.
  cbn; repeat split; [| lia | intros ->; reflexivity].
  apply fetch_records_calls; assumption.
Qed.

Lemma fetch_records_batch_cap_witness :
  calls (snd (fetch_records efetch_ok parse_three 0 1000 world_session)) =
    [CallEFetch (mkFetchRequest 0 500 "WE1" "1")] /\
  fr_retmax (mkFetchRequest 0 500 "WE1" "1") = 500.
Proof.
  destruct (fetch_records_batch_cap efetch_ok parse_three 0 1000 world_session "WE1" "1"
              eq_refl eq_refl) as [H1 [_ [_ H4]]].
  split; [exact H1 | apply H4; reflexivity].
Defined.

(** C3: when the remote fetch raises, or the parsing of its payload raises,
    [fetch_records] catches the exception, prints it and returns a new empty
    list. *)
Theorem fetch_records_failure_empty ef pg start max_records w we qk e
  (Hwe : webenv (self w) = Some we) (Hqk : query_key (self w) = Some qk)
  (Hfail : ef (mkFetchRequest start (Z.min max_records 500) we qk) = Raise e \/
           exists h, ef (mkFetchRequest start (Z.min max_records 500) we qk) = Ok h /\
                     pg h = Raise e) :
  exists w', fetch_records ef pg start max_records w = (Ok (length (heap w)), w') /\
             heap w' = (heap w ++ [[]])%list /\
             stdout w' = (stdout w ++ [("Error fetching records: " ++ e)%string])%list.
Proof.
  destruct w as [[we0 qk0 c] out cl fs hp]; cbn in Hwe, Hqk; subst; unfold_monad.
  destruct Hfail as [-> | [h [-> ->]]]; eexists; repeat split.
Qed.

Lemma fetch_records_failure_empty_witness :
  exists w', fetch_records efetch_ok parse_bad 0 200 world_session = (Ok 0%nat, w') /\
             heap w' = [[]] /\
             stdout w' = ["Error fetching records: ValueError: bad GenBank"].
Proof.
  apply (fetch_records_failure_empty efetch_ok parse_bad 0 200 world_session "WE1" "1"
           "ValueError: bad GenBank" eq_refl eq_refl).
  right; exists "LOCUS ..."; split; reflexivity.
Defined.

(** *** Searching *)

(** C4 (as stated, refuted): a zero match count and a failing remote
    service give the same result, [None]. *)
Lemma search_taxid_zero_count_like_error :
  fst (search_taxid tax_ok (esearch_hits 0) "9606" world0) =
  fst (search_taxid tax_down (esearch_hits 0) "9606" world0) /\
  fst (search_taxid tax_ok (esearch_hits 0) "9606" world0) = Ok None.
Proof. split; reflexivity. Qed.

(** C4 (amended): [search_taxid] returns [None] both when the search finds
    no record and when a remote call of either step raises; only the printed
    lines tell the two apart, and neither stores a session. *)
Theorem search_taxid_none_on_zero_or_error tax es taxid w :
  (forall name rest rep,
     tax taxid = Ok (Some name :: rest) -> es (search_term taxid) = Ok rep ->
     sr_Count rep = Some 0 ->
     search_taxid tax es taxid w =
     (Ok None,
      mkWorld (self w)
        (stdout w ++ [("Searching for records with taxID: " ++ taxid)%string;
                      ("Organism: " ++ name ++ " (TaxID: " ++ taxid ++ ")")%string;
                      ("Found 0 records for " ++ name ++ " (TaxID: " ++ taxid ++ ")")%string])%list
        (calls w ++ [CallTaxonomy taxid; CallESearch (search_term taxid)])%list
        (files w) (heap w))) /\
  (forall e,
     (tax taxid = Raise e \/
      exists name rest, tax taxid = Ok (Some name :: rest) /\ es (search_term taxid) = Raise e) ->
     fst (search_taxid tax es taxid w) = Ok None /\
     self (snd (search_taxid tax es taxid w)) = self w /\
     last (stdout (snd (search_taxid tax es taxid w))) "" =
       ("Error searching TaxID " ++ taxid ++ ": " ++ e)%string).
Proof.
  destruct w as [s out cl fs hp]; split.
  - intros name rest [c we qk] Ht Hs Hc; cbn in Hc; subst c.
    unfold search_term in Hs; unfold_monad; rewrite Ht, Hs; cbn.
    rewrite <- !app_assoc; reflexivity.
  - intros e [Ht | [name [rest [Ht Hs]]]];
      unfold search_term in *; unfold_monad; rewrite Ht; cbn; [| rewrite Hs; cbn];
      repeat split; rewrite last_last; reflexivity.
Qed.

Lemma search_taxid_none_on_zero_or_error_witness :
  search_taxid tax_ok (esearch_hits 0) "9606" world0 =
  (Ok None,
   mkWorld new_retriever
     ["Searching for records with taxID: 9606"; "Organism: Homo sapiens (TaxID: 9606)";
      "Found 0 records for Homo sapiens (TaxID: 9606)"]
     [CallTaxonomy "9606"; CallESearch "txid9606[Organism]"] [] []) /\
  fst (search_taxid tax_down (esearch_hits 0) "9606" world0) = Ok None.
Proof.
  destruct (search_taxid_none_on_zero_or_error tax_ok (esearch_hits 0) "9606" world0) as [H0 _].
  destruct (search_taxid_none_on_zero_or_error tax_down (esearch_hits 0) "9606" world0)
    as [_ He].
  split.
  - exact (H0 "Homo sapiens" [] (mkSearchReply (Some 0) (Some "WE1") (Some "1"))
             eq_refl eq_refl eq_refl).
  - apply (He "HTTP Error 500"); left; reflexivity.
Defined.

(** *** The workflow *)

(** C5: when [search_taxid] returns nothing truthy ([None] on zero records
    or on any error), [main] prints one message and returns normally:
    nothing after the search runs, so [fetch_records] issues no remote fetch
    and no file is written. *)
Theorem main_stops_without_results tax es ef pg taxid min_len max_len w o
  (Hs : fst (search_taxid tax es taxid
               (mkWorld new_retriever (stdout w) (calls w) (files w) (heap w))) = Ok o)
  (Hf : py_truthy o = false) :
  let w1 := snd (search_taxid tax es taxid
                   (mkWorld new_retriever (stdout w) (calls w) (files w) (heap w))) in
  main tax es ef pg taxid min_len max_len w =
    (Ok tt, mkWorld (self w1) (stdout w1 ++ ["No records found. Exiting."])%list
                    (calls w1) (files w1) (heap w1)) /\
  files (snd (main tax es ef pg taxid min_len max_len w)) = files w /\
  heap (snd (main tax es ef pg taxid min_len max_len w)) = heap w /\
  exists cs, calls (snd (main tax es ef pg taxid min_len max_len w)) = (calls w ++ cs)%list /\
             forallb (fun c => negb (is_efetch c)) cs = true.
Proof.
  cbv zeta.
  pose proof (search_taxid_frame tax es taxid
                (mkWorld new_retriever (stdout w) (calls w) (files w) (heap w))) as Fr.
  cbv zeta in Fr.
  destruct (search_taxid tax es taxid
              (mkWorld new_retriever (stdout w) (calls w) (files w) (heap w)))
    as [r w1] eqn:E.
  cbn in Hs, Fr; subst r.
  assert (Hm : main tax es ef pg taxid min_len max_len w =
               (Ok tt, mkWorld (self w1) (stdout w1 ++ ["No records found. Exiting."])%list
                               (calls w1) (files w1) (heap w1))).
  { unfold main, main_body, bind at 1 2, put_self. rewrite E, Hf. reflexivity. }
  split; [exact Hm |]; rewrite Hm; cbn; exact Fr.
Qed.

Lemma main_stops_without_results_witness :
  fst (search_taxid tax_down (esearch_hits 3) "9606"
         (mkWorld new_retriever [] [] [] [])) = Ok None /\
  main tax_down (esearch_hits 3) efetch_ok parse_three "9606" 10 20 world0 =
    (Ok tt, mkWorld new_retriever
              ["Searching for records with taxID: 9606";
               "Error searching TaxID 9606: HTTP Error 500"; "No records found. Exiting."]
              [CallTaxonomy "9606"] [] []).
Proof.
  split; [reflexivity |].
  apply (main_stops_without_results tax_down (esearch_hits 3) efetch_ok parse_three
           "9606" 10 20 world0 None); reflexivity.
Defined.

(** *** The stored session *)

(** C10 (as stated, refuted): a later search that raises after storing the
    new [WebEnv] but before storing [QueryKey] returns [None] and leaves a
    handle mixing the new [webenv] with the earlier [query_key]. *)
Lemma later_search_mixes_session :
  let w1 := snd (search_taxid tax_ok (esearch_hits 3) "9606" world0) in
  fst (search_taxid tax_ok esearch_no_key "9606" w1) = Ok None /\
  self w1 = mkRetriever (Some "WE1") (Some "1") (Some 3) /\
  self (snd (search_taxid tax_ok esearch_no_key "9606" w1)) =
    mkRetriever (Some "WE2") (Some "1") (Some 3).
Proof. repeat split; reflexivity. Qed.

(** C10 (amended): a search returning [None] never removes a stored
    session: [query_key] and [count] are unchanged and [webenv] stays set,
    to its earlier value unless the reply carried a new [WebEnv] without a
    [QueryKey]; a later [fetch_records] then passes its check and fetches
    with the earlier [query_key]. *)
Theorem failed_search_keeps_session tax es ef pg taxid w we qk
  (Hwe : webenv (self w) = Some we) (Hqk : query_key (self w) = Some qk)
  (Hnone : fst (search_taxid tax es taxid w) = Ok None) :
  let w' := snd (search_taxid tax es taxid w) in
  query_key (self w') = Some qk /\
  count (self w') = count (self w) /\
  (webenv (self w') = Some we \/
   exists n we', es (search_term taxid) = Ok (mkSearchReply (Some n) (Some we') None) /\
                 n <> 0 /\ webenv (self w') = Some we') /\
  forall start max_records, exists we'',
    webenv (self w') = Some we'' /\
    calls (snd (fetch_records ef pg start max_records w')) =
    (calls w' ++ [CallEFetch (mkFetchRequest start (Z.min max_records 500) we'' qk)])%list.
Proof.
  assert (Hsess : query_key (self (snd (search_taxid tax es taxid w))) = Some qk /\
                  count (self (snd (search_taxid tax es taxid w))) = count (self w) /\
                  (webenv (self (snd (search_taxid tax es taxid w))) = Some we \/
                   exists n we', es (search_term taxid) = Ok (mkSearchReply (Some n) (Some we') None) /\
                                 n <> 0 /\ webenv (self (snd (search_taxid tax es taxid w))) = Some we')).
  { destruct w as [[we0 qk0 c] out cl fs hp]; cbn in Hwe, Hqk; subst.
    unfold search_term; unfold_monad; split_matches; try discriminate Hnone;
      repeat split; auto.
    all: right;
      match goal with |- context [Ok ?a = Ok _] => destruct a as [c0 w0 q0] end;
      cbn in *; subst; do 2 eexists;
      split; [reflexivity | split; [apply Z.eqb_neq; assumption | reflexivity]]. }
  cbv zeta; destruct Hsess as [H1 [H2 H3]]; repeat split; auto.
  intros start max_records.
  assert (Hw : exists we'', webenv (self (snd (search_taxid tax es taxid w))) = Some we'')
    by (destruct H3 as [H3 | [n [we' [_ [_ H3]]]]]; eauto).
  destruct Hw as [we'' Hw]; exists we''; split; auto.
  apply fetch_records_calls; assumption.
Qed.

Lemma failed_search_keeps_session_witness :
  webenv (self world_session) = Some "WE1" /\
  fst (search_taxid tax_down (esearch_hits 3) "9606" world_session) = Ok None /\
  query_key (self (snd (search_taxid tax_down (esearch_hits 3) "9606" world_session))) = Some "1".
Proof.
  split; [reflexivity | split; [reflexivity |]].
  apply (failed_search_keeps_session tax_down (esearch_hits 3) efetch_ok parse_three "9606"
           world_session "WE1" "1"); reflexivity.
Defined.

(** *** Filtering *)

Lemma within_bounds_b_spec lo hi r :
  within_bounds_b lo hi r = true <-> within_bounds lo hi r.
Proof.
  unfold within_bounds_b, within_bounds.
  destruct (Z_le_dec lo (Z.of_nat (seq_len r)));
    destruct (Z_le_dec (Z.of_nat (seq_len r)) hi); split; intros H;
    try discriminate; try lia; reflexivity.
Qed.

Lemma within_bounds_b_leb lo hi x :
  within_bounds_b lo hi x =
  (Z.leb lo (Z.of_nat (seq_len x)) && Z.leb (Z.of_nat (seq_len x)) hi)%bool.
Proof.
  unfold within_bounds_b.
  destruct (Z_le_dec lo (Z.of_nat (seq_len x)));
    destruct (Z_le_dec (Z.of_nat (seq_len x)) hi);
    destruct (Z.leb_spec lo (Z.of_nat (seq_len x)));
    destruct (Z.leb_spec (Z.of_nat (seq_len x)) hi); cbn; try reflexivity; lia.
Qed.

Lemma keep_by_length_filter lo hi R :
  keep_by_length lo hi R = filter (within_bounds_b lo hi) R.
Proof.
  induction R as [| x R IH]; cbn; [reflexivity |].
  rewrite within_bounds_b_leb, IH; reflexivity.
Qed.

Lemma filter_by_length_run r lo hi w R :
  nth_error (heap w) r = Some R ->
  filter_by_length r lo hi w =
  (Ok (length (heap w)),
   mkWorld (self w) (stdout w) (calls w) (files w) (heap w ++ [keep_by_length lo hi R])%list).
Proof. intros HR; unfold_monad; rewrite HR; reflexivity. Qed.

Lemma nth_error_alloc {A} (h : list A) x : nth_error (h ++ [x])%list (length h) = Some x.
Proof. rewrite nth_error_app2, Nat.sub_diag by lia; reflexivity. Qed.

Lemma nth_error_alloc_old {A} (h : list A) x r y :
  nth_error h r = Some y -> nth_error (h ++ [x])%list r = Some y.
Proof.
  intros H; rewrite nth_error_app1; [exact H |].
  apply nth_error_Some; rewrite H; discriminate.
Qed.

(** C6: [filter_by_length] returns a new list holding exactly the records
    of the input with [lo <= len(rec.seq) <= hi], in input order (the
    Standard Library's [filter] with the bounds test); so empty input and
    [lo > hi] give an empty list.  The input list is left as it was. *)
Theorem filter_by_length_exact r lo hi w R
  (HR : nth_error (heap w) r = Some R) :
  exists F w',
    filter_by_length r lo hi w = (Ok (length (heap w)), w') /\
    nth_error (heap w') (length (heap w)) = Some F /\
    nth_error (heap w') r = Some R /\
    F = filter (within_bounds_b lo hi) R /\
    (forall x, In x F <-> In x R /\ within_bounds lo hi x) /\
    (R = [] -> F = []) /\
    (hi < lo -> F = []).
Proof.
  exists (keep_by_length lo hi R); eexists.
  split; [apply filter_by_length_run, HR |]; cbn.
  split; [apply nth_error_alloc |].
  split; [apply nth_error_alloc_old, HR |].
  rewrite keep_by_length_filter.
  split; [reflexivity |].
  split; [intros x; rewrite filter_In, within_bounds_b_spec; reflexivity |].
  split; [intros ->; reflexivity |].
  intros Hlt; clear HR; induction R as [| x R IH]; cbn; [reflexivity |].
  replace (within_bounds_b lo hi x) with false.
  - apply IH.
  - symmetry; apply not_true_iff_false; rewrite within_bounds_b_spec;
      unfold within_bounds; lia.
Qed.

Lemma filter_by_length_exact_witness :
  (exists F w',
    filter_by_length 0%nat 5 15
      (mkWorld new_retriever [] [] [] [[rec_A3; rec_A1; rec_A2]]) = (Ok 1%nat, w') /\
    nth_error (heap w') 1%nat = Some F /\
    nth_error (heap w') 0%nat = Some [rec_A3; rec_A1; rec_A2] /\
    F = filter (within_bounds_b 5 15) [rec_A3; rec_A1; rec_A2] /\
    (forall x, In x F <-> In x [rec_A3; rec_A1; rec_A2] /\ within_bounds 5 15 x) /\
    ([rec_A3; rec_A1; rec_A2] = [] -> F = []) /\ (15 < 5 -> F = [])) /\
  filter (within_bounds_b 5 15) [rec_A3; rec_A1; rec_A2] = [rec_A1; rec_A2].
Proof.
  split; [| reflexivity].
  apply (filter_by_length_exact 0%nat 5 15
           (mkWorld new_retriever [] [] [] [[rec_A3; rec_A1; rec_A2]]) [rec_A3; rec_A1; rec_A2]).
  reflexivity.
Defined.

Lemma keep_by_length_idem lo hi R :
  keep_by_length lo hi (keep_by_length lo hi R) = keep_by_length lo hi R.
Proof.
  rewrite !keep_by_length_filter.
  induction R as [| x R IH]; cbn; [reflexivity |].
  destruct (within_bounds_b lo hi x) eqn:Hx; cbn; rewrite ?Hx, IH; reflexivity.
Qed.

(** C7: filtering the result of [filter_by_length] again with the same
    bounds gives a list equal to it. *)
Theorem filter_by_length_idempotent r lo hi w R
  (HR : nth_error (heap w) r = Some R) :
  exists r1 w1 r2 w2 F,
    filter_by_length r lo hi w = (Ok r1, w1) /\
    filter_by_length r1 lo hi w1 = (Ok r2, w2) /\
    nth_error (heap w1) r1 = Some F /\
    nth_error (heap w2) r2 = Some F.
Proof.
  pose proof (filter_by_length_run r lo hi w R HR) as E1.
  pose proof (filter_by_length_run (length (heap w)) lo hi
                (mkWorld (self w) (stdout w) (calls w) (files w)
                         (heap w ++ [keep_by_length lo hi R])%list)
                (keep_by_length lo hi R) (nth_error_alloc (heap w) _)) as E2.
  cbn in E2.
  do 5 eexists; split; [exact E1 |]; split; [exact E2 |]; cbn.
  split; [apply nth_error_alloc |].
  rewrite keep_by_length_idem; apply nth_error_alloc.
Qed.

Lemma filter_by_length_idempotent_witness :
  exists r1 w1 r2 w2 F,
    filter_by_length 0%nat 10 20 (mkWorld new_retriever [] [] [] [[rec_A1; rec_A2; rec_A3]])
      = (Ok r1, w1) /\
    filter_by_length r1 10 20 w1 = (Ok r2, w2) /\
    nth_error (heap w1) r1 = Some F /\ nth_error (heap w2) r2 = Some F.
Proof.
  apply (filter_by_length_idempotent 0%nat 10 20
           (mkWorld new_retriever [] [] [] [[rec_A1; rec_A2; rec_A3]]) [rec_A1; rec_A2; rec_A3]).
  reflexivity.
Defined.

(** *** Sorting *)

Section SortFacts.
Variable key : SeqRecord -> nat.
#[local] Arguments Nat.ltb : simpl never.
#[local] Arguments Nat.eqb : simpl never.

Lemma insort_perm x l : Permutation (insort key x l) (x :: l).
Proof.
  induction l as [| y l IH]; cbn; [reflexivity |].
  destruct (Nat.ltb (key y) (key x)); [| reflexivity].
  rewrite IH; apply perm_swap.
Qed.

Lemma stable_sort_perm l : Permutation (stable_sort key l) l.
Proof.
  induction l as [| x l IH]; cbn; [reflexivity |].
  rewrite insort_perm, IH; reflexivity.
Qed.

Let le_key (a b : SeqRecord) : Prop := (key a <= key b)%nat.

Lemma insort_sorted x l : Sorted le_key l -> Sorted le_key (insort key x l).
Proof.
  induction 1 as [| y l Hl IH Hhd]; cbn; [repeat constructor |].
  destruct (Nat.ltb_spec (key y) (key x)) as [Hlt | Hge].
  - constructor; [exact IH |].
    destruct l as [| z l]; cbn; [constructor; unfold le_key; lia |].
    inversion Hhd; subst.
    destruct (Nat.ltb (key z) (key x)); constructor; unfold le_key in *; lia.
  - constructor; [constructor; assumption |]; constructor; unfold le_key; lia.
Qed.

Lemma stable_sort_sorted l : Sorted le_key (stable_sort key l).
Proof.
  induction l as [| x l IH]; cbn; [constructor |].
  apply insort_sorted, IH.
Qed.

(** Records of one key keep their relative order. *)
Lemma filter_insort k x l :
  filter (fun y => Nat.eqb (key y) k) (insort key x l) =
  if Nat.eqb (key x) k then x :: filter (fun y => Nat.eqb (key y) k) l
  else filter (fun y => Nat.eqb (key y) k) l.
Proof.
  induction l as [| y l IH]; cbn.
  - destruct (Nat.eqb (key x) k); reflexivity.
  - destruct (Nat.ltb_spec (key y) (key x)) as [Hlt | Hge]; cbn.
    + rewrite IH.
      destruct (Nat.eqb_spec (key x) k); destruct (Nat.eqb_spec (key y) k);
        try lia; reflexivity.
    + destruct (Nat.eqb (key x) k); reflexivity.
Qed.

Lemma stable_sort_stable k l :
  filter (fun y => Nat.eqb (key y) k) (stable_sort key l) =
  filter (fun y => Nat.eqb (key y) k) l.
Proof.
  induction l as [| x l IH]; cbn; [reflexivity |].
  rewrite filter_insort, IH; reflexivity.
Qed.

Lemma sorted_rev_flip l :
  Sorted le_key l -> Sorted (fun a b => le_key b a) (rev l).
Proof.
  intros H; apply StronglySorted_Sorted.
  apply Sorted_StronglySorted in H; [| intros a b c; unfold le_key; lia].
  induction H as [| x l Hl IH Hall]; cbn; [constructor |].
  clear Hl; induction (rev l) as [| y m IHm] eqn:E in IH |- *.
  - cbn; repeat constructor.
  - (* [rev l] is nonempty here; insert [x] at the end *)
    assert (Hall' : Forall (fun y => le_key x y) (rev l)) by (apply Forall_rev; exact Hall).
    rewrite E in Hall'.
    clear E.
    revert IH Hall'; generalize (y :: m) as n; intros n IH Hall'.
    induction IH as [| z n Hn IHn Hz]; cbn; [repeat constructor |].
    inversion Hall'; subst.
    constructor; [apply IHn; assumption |].
    apply Forall_app; split; [exact Hz | constructor; [assumption | constructor]].
Qed.

(** [sorted(l, key=key, reverse=True)] is a permutation of [l], in
    decreasing key order, keeping the relative order of equal keys. *)
Lemma py_sorted_reverse_spec l :
  Permutation (py_sorted_reverse key l) l /\
  Sorted (fun a b => key b <= key a)%nat (py_sorted_reverse key l) /\
  (forall k, filter (fun y => Nat.eqb (key y) k) (py_sorted_reverse key l) =
             filter (fun y => Nat.eqb (key y) k) l).
Proof.
  unfold py_sorted_reverse; split; [| split].
  - rewrite <- Permutation_rev, stable_sort_perm, <- Permutation_rev; reflexivity.
  - apply (sorted_rev_flip (stable_sort key (rev l))), stable_sort_sorted.
  - intros k; rewrite filter_rev, stable_sort_stable, filter_rev, rev_involutive; reflexivity.
Qed.
End SortFacts.

(** *** Reports *)

Lemma find_file_written name f fs :
  find_file name ((name, f) :: fs) = Some f.
Proof. cbn; rewrite String.eqb_refl; reflexivity. Qed.

(** C8: [generate_plot] sorts a new copy [S] of the input list: [S] is a
    permutation of it, by decreasing sequence length, with records of equal
    length in their input order; the plot shows the ids and lengths of [S],
    and the caller's list is still there, unchanged. *)
Theorem generate_plot_sorted_copy r filename w R
  (HR : nth_error (heap w) r = Some R) :
  exists S w',
    generate_plot r filename w = (Ok tt, w') /\
    heap w' = (heap w ++ [S])%list /\
    nth_error (heap w') r = Some R /\
    find_file filename (files w') =
      Some (PngFile (mkPlot (map rec_id S) (map (fun x => Z.of_nat (seq_len x)) S)
                            "GenBank Record Lengths" "Accession number" "Sequence length")) /\
    Permutation S R /\
    Sorted (fun a b => seq_len b <= seq_len a)%nat S /\
    (forall k, filter (fun x => Nat.eqb (seq_len x) k) S =
               filter (fun x => Nat.eqb (seq_len x) k) R).
Proof.
  exists (py_sorted_reverse seq_len R).
  unfold generate_plot, bind, deref at 1; rewrite HR.
  unfold alloc at 1, deref; cbn [self stdout calls files heap].
  rewrite nth_error_alloc.
  eexists; split; [reflexivity |]; cbn.
  split; [reflexivity |].
  split; [apply nth_error_alloc_old, HR |].
  split; [apply find_file_written |].
  apply py_sorted_reverse_spec.
Qed.

Lemma generate_plot_sorted_copy_witness :
  exists S w',
    generate_plot 0%nat "p.png" (mkWorld new_retriever [] [] [] [[rec_A1; rec_A3; rec_A2]])
      = (Ok tt, w') /\
    heap w' = [[rec_A1; rec_A3; rec_A2]; S] /\
    nth_error (heap w') 0%nat = Some [rec_A1; rec_A3; rec_A2] /\
    find_file "p.png" (files w') =
      Some (PngFile (mkPlot (map rec_id S) (map (fun x => Z.of_nat (seq_len x)) S)
                            "GenBank Record Lengths" "Accession number" "Sequence length")) /\
    Permutation S [rec_A1; rec_A3; rec_A2] /\
    Sorted (fun a b => seq_len b <= seq_len a)%nat S /\
    (forall k, filter (fun x => Nat.eqb (seq_len x) k) S =
               filter (fun x => Nat.eqb (seq_len x) k) [rec_A1; rec_A3; rec_A2]).
Proof.
  apply (generate_plot_sorted_copy 0%nat "p.png"
           (mkWorld new_retriever [] [] [] [[rec_A1; rec_A3; rec_A2]])).
  reflexivity.
Defined.

(** C9: [generate_csv] writes the header [Accession number,Length,Description]
    and then one row [id, length, description] per record, in input order,
    with no index column. *)
Theorem generate_csv_rows r filename w R
  (HR : nth_error (heap w) r = Some R) :
  exists w',
    generate_csv r filename w = (Ok tt, w') /\
    find_file filename (files w') =
      Some (CsvFile (map CStr csv_columns ::
                     map (fun x => [CStr (rec_id x); CInt (Z.of_nat (seq_len x));
                                    CStr (rec_description x)]) R)) /\
    csv_line (map CStr csv_columns) = "Accession number,Length,Description" /\
    Forall (fun row => length row = 3%nat)
      (map CStr csv_columns ::
       map (fun x => [CStr (rec_id x); CInt (Z.of_nat (seq_len x));
                      CStr (rec_description x)]) R).
Proof.
  unfold generate_csv, bind, deref at 1; rewrite HR.
  eexists; split; [reflexivity |]; cbn [files].
  split; [apply find_file_written |].
  split; [reflexivity |].
  constructor; [reflexivity |].
  apply Forall_map, Forall_forall; intros; reflexivity.
Qed.

Lemma generate_csv_rows_witness :
  exists w',
    generate_csv 0%nat "r.csv"
      (mkWorld new_retriever [] [] [] [[rec_A2; rec_A1; rec_A3]]) = (Ok tt, w') /\
    find_file "r.csv" (files w') =
      Some (CsvFile [[CStr "Accession number"; CStr "Length"; CStr "Description"];
                     [CStr "A2"; CInt 15; CStr "second"];
                     [CStr "A1"; CInt 5; CStr "first"];
                     [CStr "A3"; CInt 30; CStr "third"]]) /\
    csv_line (map CStr csv_columns) = "Accession number,Length,Description" /\
    Forall (fun row => length row = 3%nat)
      [[CStr "Accession number"; CStr "Length"; CStr "Description"];
       [CStr "A2"; CInt 15; CStr "second"];
       [CStr "A1"; CInt 5; CStr "first"];
       [CStr "A3"; CInt 30; CStr "third"]].
Proof.
  apply (generate_csv_rows 0%nat "r.csv"
           (mkWorld new_retriever [] [] [] [[rec_A2; rec_A1; rec_A3]]) [rec_A2; rec_A1; rec_A3]).
  reflexivity.
Defined.

(** ** Further properties of the methods and of [main] *)

Lemma bind_ok {A B} (m : M A) (f : A -> M B) w a w' :
  m w = (Ok a, w') -> bind m f w = f a w'.
Proof. unfold bind; intros ->; reflexivity. Qed.

(** *** [search_taxid] *)

(** A search whose two lookups succeed with a nonzero count stores the whole
    session (WebEnv, QueryKey and count), returns the count, and issues
    exactly the taxonomy and search calls. *)
Lemma search_taxid_success_run tax es taxid w name rest n we qk
  (Ht : tax taxid = Ok (Some name :: rest))
  (Hs : es (search_term taxid) = Ok (mkSearchReply (Some n) (Some we) (Some qk)))
  (Hn : n <> 0) :
  search_taxid tax es taxid w =
  (Ok (Some n),
   mkWorld (mkRetriever (Some we) (Some qk) (Some n))
     (stdout w ++ [("Searching for records with taxID: " ++ taxid)%string;
                   ("Organism: " ++ name ++ " (TaxID: " ++ taxid ++ ")")%string;
                   ("Found " ++ py_str_int n ++ " records for " ++ name
                      ++ " (TaxID: " ++ taxid ++ ")")%string])%list
     (calls w ++ [CallTaxonomy taxid; CallESearch (search_term taxid)])%list
     (files w) (heap w)).
Proof.
  destruct w as [s out cl fs hp].
  unfold search_term in Hs; unfold_monad; rewrite Ht, Hs; cbn.
  apply Z.eqb_neq in Hn; rewrite Hn; cbn.
  rewrite <- !app_assoc; reflexivity.
Qed.


(** Whatever the remote service does, [search_taxid] raises nothing and
    returns either [None] or a nonzero count; when it returns a count, the
    retriever holds a complete session with that count.  It writes no file,
    allocates no list and issues no fetch. *)
Lemma search_taxid_shape tax es taxid w :
  exists o w1,
    search_taxid tax es taxid w = (Ok o, w1) /\
    (o = None \/
     exists n we qk, o = Some n /\ n <> 0 /\ self w1 = mkRetriever (Some we) (Some qk) (Some n)) /\
    files w1 = files w /\ heap w1 = heap w /\
    (exists cs, calls w1 = (calls w ++ cs)%list /\
                forallb (fun c => negb (is_efetch c)) cs = true).
Proof.
  assert (Hr : fst (search_taxid tax es taxid w) = Ok None \/
               exists n we qk, fst (search_taxid tax es taxid w) = Ok (Some n) /\ n <> 0 /\
                 self (snd (search_taxid tax es taxid w)) = mkRetriever (Some we) (Some qk) (Some n)).
  { destruct w as [s out cl fs hp]; unfold_monad; split_matches; auto.
    right; do 3 eexists; split; [reflexivity | split; [| reflexivity]].
    apply Z.eqb_neq; assumption. }
  pose proof (search_taxid_frame tax es taxid w) as Fr; cbv zeta in Fr.
  destruct (search_taxid tax es taxid w) as [r w1]; cbn in Fr, Hr.
  destruct Hr as [-> | (n & we & qk & -> & Hn & Hs)]; do 2 eexists;
    (split; [reflexivity | split; [| exact Fr]]); [left | right]; eauto 6.
Qed.

(** A taxonomy reply with no record, or whose first record has no
    ["ScientificName"], makes [search_taxid] stop before the search: it
    returns [None], issues only the taxonomy call and keeps the retriever. *)
Theorem search_taxid_bad_taxonomy tax es taxid w
  (Ht : tax taxid = Ok [] \/ exists rest, tax taxid = Ok (None :: rest)) :
  fst (search_taxid tax es taxid w) = Ok None /\
  calls (snd (search_taxid tax es taxid w)) = (calls w ++ [CallTaxonomy taxid])%list /\
  self (snd (search_taxid tax es taxid w)) = self w.
Proof.
  destruct w as [s out cl fs hp]; unfold_monad.
  destruct Ht as [Ht | [rest Ht]]; rewrite Ht; cbn; repeat split.
Qed.

Lemma search_taxid_bad_taxonomy_witness :
  fst (search_taxid tax_empty (esearch_hits 3) "9606" world_session) = Ok None /\
  calls (snd (search_taxid tax_empty (esearch_hits 3) "9606" world_session)) =
    [CallTaxonomy "9606"] /\
  self (snd (search_taxid tax_empty (esearch_hits 3) "9606" world_session)) =
    self world_session.
Proof.
  apply (search_taxid_bad_taxonomy tax_empty (esearch_hits 3) "9606" world_session).
  left; reflexivity.
Defined.

(** *** [fetch_records] *)

(** With a session and a fetch and parse that succeed, [fetch_records]
    returns a new list holding exactly the parsed records, prints nothing and
    issues the one fetch call. *)
Lemma fetch_records_success_run ef pg start max_records w we qk h R
  (Hwe : webenv (self w) = Some we) (Hqk : query_key (self w) = Some qk)
  (Hf : ef (mkFetchRequest start (Z.min max_records 500) we qk) = Ok h)
  (Hp : pg h = Ok R) :
  fetch_records ef pg start max_records w =
  (Ok (length (heap w)),
   mkWorld (self w) (stdout w)
     (calls w ++ [CallEFetch (mkFetchRequest start (Z.min max_records 500) we qk)])%list
     (files w) (heap w ++ [R])%list).
Proof.
  destruct w as [[we0 qk0 c] out cl fs hp]; cbn in Hwe, Hqk; subst; unfold_monad.
  rewrite Hf; cbn; rewrite Hp; reflexivity.
Qed.

(** With a session and a fetch and parse that succeed, [fetch_records]
    returns a new list holding exactly the parsed records, prints nothing and
    issues the one fetch call. *)
Theorem fetch_records_success ef pg start max_records w we qk h R
  (Hwe : webenv (self w) = Some we) (Hqk : query_key (self w) = Some qk)
  (Hf : ef (mkFetchRequest start (Z.min max_records 500) we qk) = Ok h)
  (Hp : pg h = Ok R) :
  fetch_records ef pg start max_records w =
  (Ok (length (heap w)),
   mkWorld (self w) (stdout w)
     (calls w ++ [CallEFetch (mkFetchRequest start (Z.min max_records 500) we qk)])%list
     (files w) (heap w ++ [R])%list).
Proof. eapply fetch_records_success_run; eassumption. Qed.

Lemma fetch_records_success_witness :
  fetch_records efetch_ok parse_three 0 1000 world_session =
  (Ok 0%nat, mkWorld (self world_session) []
               [CallEFetch (mkFetchRequest 0 500 "WE1" "1")] [] [[rec_A1; rec_A2; rec_A3]]).
Proof.
  apply (fetch_records_success efetch_ok parse_three 0 1000 world_session "WE1" "1"
           "LOCUS ..."); reflexivity.
Defined.

(** Whatever the remote service and the parser do, [fetch_records] raises
    nothing and returns a newly allocated list; it leaves the session, the
    files and every existing list as they were. *)
Lemma fetch_records_shape ef pg start max_records w :
  exists l w1,
    fetch_records ef pg start max_records w = (Ok (length (heap w)), w1) /\
    heap w1 = (heap w ++ [l])%list /\
    self w1 = self w /\ files w1 = files w.
Proof.
  destruct w as [s out cl fs hp]; unfold_monad; split_matches.
  all: do 2 eexists; split; [reflexivity | repeat split].
Qed.

(** Whatever the remote service does, [search_taxid] raises nothing and
    returns either [None] or a nonzero count; when it returns a count, the
    retriever holds a complete session with that count.  It writes no file,
    allocates no list and issues no fetch. *)
Theorem search_taxid_outcome tax es taxid w :
  exists o w1,
    search_taxid tax es taxid w = (Ok o, w1) /\
    (o = None \/
     exists n we qk, o = Some n /\ n <> 0 /\ self w1 = mkRetriever (Some we) (Some qk) (Some n)) /\
    files w1 = files w /\ heap w1 = heap w /\
    (exists cs, calls w1 = (calls w ++ cs)%list /\
                forallb (fun c => negb (is_efetch c)) cs = true).
Proof. apply search_taxid_shape. Qed.

(** A search whose two lookups succeed with a nonzero count stores the whole
    session (WebEnv, QueryKey and count), returns the count, and issues
    exactly the taxonomy and search calls. *)
Theorem search_taxid_success tax es taxid w name rest n we qk
  (Ht : tax taxid = Ok (Some name :: rest))
  (Hs : es (search_term taxid) = Ok (mkSearchReply (Some n) (Some we) (Some qk)))
  (Hn : n <> 0) :
  search_taxid tax es taxid w =
  (Ok (Some n),
   mkWorld (mkRetriever (Some we) (Some qk) (Some n))
     (stdout w ++ [("Searching for records with taxID: " ++ taxid)%string;
                   ("Organism: " ++ name ++ " (TaxID: " ++ taxid ++ ")")%string;
                   ("Found " ++ py_str_int n ++ " records for " ++ name
                      ++ " (TaxID: " ++ taxid ++ ")")%string])%list
     (calls w ++ [CallTaxonomy taxid; CallESearch (search_term taxid)])%list
     (files w) (heap w)).
Proof. eapply search_taxid_success_run; eassumption. Qed.

Lemma search_taxid_success_witness :
  search_taxid tax_ok (esearch_hits 3) "9606" world0 =
  (Ok (Some 3),
   mkWorld (mkRetriever (Some "WE1") (Some "1") (Some 3))
     ["Searching for records with taxID: 9606"; "Organism: Homo sapiens (TaxID: 9606)";
      "Found 3 records for Homo sapiens (TaxID: 9606)"]
     [CallTaxonomy "9606"; CallESearch "txid9606[Organism]"] [] []).
Proof.
  apply (search_taxid_success tax_ok (esearch_hits 3) "9606" world0 "Homo sapiens" []);
    [reflexivity | reflexivity | lia].
Defined.

(** Whatever the remote service and the parser do, [fetch_records] raises
    nothing and returns a newly allocated list; it leaves the session, the
    files and every existing list as they were. *)
Theorem fetch_records_outcome ef pg start max_records w :
  exists l w1,
    fetch_records ef pg start max_records w = (Ok (length (heap w)), w1) /\
    heap w1 = (heap w ++ [l])%list /\
    self w1 = self w /\ files w1 = files w.
Proof. apply fetch_records_shape. Qed.


(** *** The reports *)

Lemma generate_csv_run r filename w R :
  nth_error (heap w) r = Some R ->
  generate_csv r filename w =
  (Ok tt, mkWorld (self w) (stdout w ++ [("Saved CSV report to " ++ filename)%string])%list
                  (calls w)
                  ((filename, CsvFile (map CStr csv_columns :: map csv_row R))
                     :: other_files filename (files w))
                  (heap w)).
Proof. intros HR; unfold generate_csv, bind, deref at 1; rewrite HR; reflexivity. Qed.

Lemma generate_plot_run r filename w R :
  nth_error (heap w) r = Some R ->
  generate_plot r filename w =
  (Ok tt, mkWorld (self w) (stdout w ++ [("Saved plot to " ++ filename)%string])%list
                  (calls w)
                  ((filename, PngFile (plot_of (py_sorted_reverse seq_len R)))
                     :: other_files filename (files w))
                  (heap w ++ [py_sorted_reverse seq_len R])%list).
Proof.
  intros HR; unfold generate_plot, bind, deref at 1; rewrite HR.
  unfold alloc at 1, deref; cbn [self stdout calls files heap].
  rewrite nth_error_alloc; reflexivity.
Qed.

Lemma find_file_other name f n fs :
  n <> name -> find_file n ((name, f) :: other_files name fs) = find_file n fs.
Proof.
  intros Hn; cbn.
  replace (String.eqb name n) with false by (symmetry; apply String.eqb_neq; auto).
  induction fs as [| [m g] fs IH]; cbn; [reflexivity |].
  destruct (String.eqb_spec m name) as [-> | Hm]; cbn.
  - replace (String.eqb name n) with false by (symmetry; apply String.eqb_neq; auto).
    exact IH.
  - destruct (String.eqb m n); [reflexivity | exact IH].
Qed.

(** [generate_csv] and [generate_plot] each replace only the file of the
    given name: a file of any other name is still there with its content. *)
Theorem generate_reports_keep_other_files r filename w R n
  (HR : nth_error (heap w) r = Some R) (Hn : n <> filename) :
  find_file n (files (snd (generate_csv r filename w))) = find_file n (files w) /\
  find_file n (files (snd (generate_plot r filename w))) = find_file n (files w).
Proof.
  rewrite (generate_csv_run r filename w R HR), (generate_plot_run r filename w R HR); cbn [snd files].
  split; apply find_file_other; exact Hn.
Qed.

Lemma generate_reports_keep_other_files_witness :
  find_file "taxid_9606_report.csv"
    (files (snd (generate_plot 0%nat "taxid_9606_plot.png"
                  (mkWorld new_retriever [] [] [("taxid_9606_report.csv", CsvFile [])] [[rec_A1]]))))
  = Some (CsvFile []).
Proof.
  destruct (generate_reports_keep_other_files 0%nat "taxid_9606_plot.png"
              (mkWorld new_retriever [] [] [("taxid_9606_report.csv", CsvFile [])] [[rec_A1]])
              [rec_A1] "taxid_9606_report.csv" eq_refl) as [_ H];
    [intros E; discriminate E | exact H].
Defined.

(** *** [main] after a successful search *)

Lemma main_after_search tax es ef pg taxid lo hi w o w1 l w2
  (E1 : search_taxid tax es taxid
          (mkWorld new_retriever (stdout w) (calls w) (files w) (heap w)) = (Ok o, w1))
  (T : py_truthy o = true)
  (E2 : fetch_records ef pg 0 200
          (mkWorld (self w1) (stdout w1 ++ [String (ascii_of_nat 10) "Fetching records..."])%list
                   (calls w1) (files w1) (heap w1)) = (Ok (length (heap w1)), w2))
  (H2 : heap w2 = (heap w1 ++ [l])%list) :
  (keep_by_length lo hi l = [] ->
   exists w3, main tax es ef pg taxid lo hi w = (Ok tt, w3) /\
              self w3 = self w2 /\ calls w3 = calls w2 /\ files w3 = files w2 /\
              last (stdout w3) "" = "No records matched the length criteria.") /\
  (keep_by_length lo hi l <> [] ->
   exists w3, main tax es ef pg taxid lo hi w = (Ok tt, w3) /\
              self w3 = self w2 /\ calls w3 = calls w2 /\
              files w3 =
                ((("taxid_" ++ taxid ++ "_plot.png")%string,
                  PngFile (plot_of (py_sorted_reverse seq_len (keep_by_length lo hi l))))
                 :: other_files ("taxid_" ++ taxid ++ "_plot.png")
                      (((("taxid_" ++ taxid ++ "_report.csv")%string,
                         CsvFile (map CStr csv_columns :: map csv_row (keep_by_length lo hi l)))
                        :: other_files ("taxid_" ++ taxid ++ "_report.csv") (files w2))))).
Proof.
  unfold main; erewrite bind_ok; [| reflexivity]; unfold main_body.
  rewrite (bind_ok _ _ _ o w1 E1), T; cbn [negb].
  erewrite bind_ok; [| reflexivity]; rewrite (bind_ok _ _ _ _ _ E2).
  assert (Hd : deref (length (heap w1)) w2 = (Ok l, w2))
    by (unfold deref; rewrite H2, nth_error_alloc; reflexivity).
  rewrite (bind_ok _ _ _ _ _ Hd); erewrite bind_ok; [| reflexivity].
  erewrite bind_ok;
    [| apply filter_by_length_run; cbn [heap]; rewrite H2; apply nth_error_alloc].
  erewrite bind_ok;
    [| unfold deref; cbn [heap]; rewrite nth_error_alloc; reflexivity].
  split; intros HF.
  - rewrite HF; unfold print; eexists; split; [reflexivity |].
    cbn; repeat split; apply last_last.
  - destruct (keep_by_length lo hi l) as [| x xs] eqn:K; [contradiction |].
    erewrite bind_ok; [| apply generate_csv_run; cbn [heap]; apply nth_error_alloc].
    erewrite generate_plot_run; [| cbn [heap]; apply nth_error_alloc].
    eexists; split; [reflexivity |]; cbn [self calls files]; repeat split.
Qed.

Lemma fetch_records_failure_run ef pg start max_records w we qk e
  (Hwe : webenv (self w) = Some we) (Hqk : query_key (self w) = Some qk)
  (Hfail : ef (mkFetchRequest start (Z.min max_records 500) we qk) = Raise e \/
           exists h, ef (mkFetchRequest start (Z.min max_records 500) we qk) = Ok h /\
                     pg h = Raise e) :
  fetch_records ef pg start max_records w =
  (Ok (length (heap w)),
   mkWorld (self w) (stdout w ++ [("Error fetching records: " ++ e)%string])%list
     (calls w ++ [CallEFetch (mkFetchRequest start (Z.min max_records 500) we qk)])%list
     (files w) (heap w ++ [[]])%list).
Proof.
  destruct w as [[we0 qk0 c] out cl fs hp]; cbn in Hwe, Hqk; subst; unfold_monad.
  destruct Hfail as [-> | [h [-> ->]]]; reflexivity.
Qed.

Lemma main_falsy_run tax es ef pg taxid lo hi w o w1
  (E1 : search_taxid tax es taxid
          (mkWorld new_retriever (stdout w) (calls w) (files w) (heap w)) = (Ok o, w1))
  (T : py_truthy o = false) :
  main tax es ef pg taxid lo hi w =
  (Ok tt, mkWorld (self w1) (stdout w1 ++ ["No records found. Exiting."])%list
                  (calls w1) (files w1) (heap w1)).
Proof.
  unfold main; erewrite bind_ok; [| reflexivity]; unfold main_body.
  rewrite (bind_ok _ _ _ o w1 E1), T; reflexivity.
Qed.

Lemma keep_by_length_inverted lo hi R : hi < lo -> keep_by_length lo hi R = [].
Proof.
  intros Hlt; rewrite keep_by_length_filter.
  induction R as [| x R IH]; cbn; [reflexivity |].
  replace (within_bounds_b lo hi x) with false; [exact IH |].
  symmetry; apply not_true_iff_false; rewrite within_bounds_b_spec;
    unfold within_bounds; lia.
Qed.

Lemma append_neq_suffix (t a b : string) :
  String.eqb a b = false -> String.eqb (t ++ a) (t ++ b) = false.
Proof.
  intros H; induction t as [| c t IH]; cbn; [exact H |].
  rewrite Ascii.eqb_refl; exact IH.
Qed.

Lemma report_plot_names_differ taxid :
  String.eqb ("taxid_" ++ taxid ++ "_plot.png") ("taxid_" ++ taxid ++ "_report.csv") = false.
Proof.
  do 2 apply append_neq_suffix; reflexivity.
Qed.

(** Every run of [main] (after the prompts) either leaves the files as they
    were, or writes the two reports, the table of a nonempty filtered list
    of fetched records and its chart. *)
Lemma main_cases tax es ef pg taxid lo hi w :
  exists w',
    main tax es ef pg taxid lo hi w = (Ok tt, w') /\
    (files w' = files w \/
     exists l, keep_by_length lo hi l <> [] /\
       files w' =
         ((("taxid_" ++ taxid ++ "_plot.png")%string,
           PngFile (plot_of (py_sorted_reverse seq_len (keep_by_length lo hi l))))
          :: other_files ("taxid_" ++ taxid ++ "_plot.png")
               (((("taxid_" ++ taxid ++ "_report.csv")%string,
                  CsvFile (map CStr csv_columns :: map csv_row (keep_by_length lo hi l)))
                 :: other_files ("taxid_" ++ taxid ++ "_report.csv") (files w))))).
Proof.
  destruct (search_taxid_shape tax es taxid
              (mkWorld new_retriever (stdout w) (calls w) (files w) (heap w)))
    as (o & w1 & E1 & _ & Hf1 & _ & _); cbn in Hf1.
  destruct (py_truthy o) eqn:T.
  - destruct (fetch_records_shape ef pg 0 200
                (mkWorld (self w1) (stdout w1 ++ [String (ascii_of_nat 10) "Fetching records..."])%list
                         (calls w1) (files w1) (heap w1)))
      as (l & w2 & E2 & H2 & _ & Hf2); cbn in E2, H2, Hf2.
    destruct (main_after_search tax es ef pg taxid lo hi w o w1 l w2 E1 T E2 H2) as [Ha Hb].
    destruct (keep_by_length lo hi l) eqn:K.
    + destruct (Ha eq_refl) as (w3 & E & _ & _ & Hf3 & _).
      exists w3; split; [exact E | left; congruence].
    + rewrite <- K in Hb; destruct Hb as (w3 & E & _ & _ & Hf3); [rewrite K; discriminate |].
      exists w3; split; [exact E | right; exists l; split; [rewrite K; discriminate |]].
      rewrite Hf3, Hf2, Hf1; reflexivity.
  - eexists; split; [apply (main_falsy_run tax es ef pg taxid lo hi w o w1 E1 T) |].
    left; exact Hf1.
Qed.

(** A successful run: the search finds [n > 0] records, the one page of at
    most 200 records at offset 0 is fetched with the new session and
    parsed, and some records pass the length filter.  [main] then writes
    [taxid_{taxid}_report.csv] with one row per filtered record and
    [taxid_{taxid}_plot.png] with the filtered records sorted by
    decreasing length, after exactly three remote calls. *)
Theorem main_success_reports tax es ef pg taxid lo hi w name rest n we qk h R
  (Ht : tax taxid = Ok (Some name :: rest))
  (Hs : es (search_term taxid) = Ok (mkSearchReply (Some n) (Some we) (Some qk)))
  (Hn : n <> 0)
  (Hf : ef (mkFetchRequest 0 200 we qk) = Ok h) (Hp : pg h = Ok R)
  (HF : keep_by_length lo hi R <> []) :
  exists w',
    main tax es ef pg taxid lo hi w = (Ok tt, w') /\
    self w' = mkRetriever (Some we) (Some qk) (Some n) /\
    calls w' = (calls w ++ [CallTaxonomy taxid; CallESearch (search_term taxid);
                            CallEFetch (mkFetchRequest 0 200 we qk)])%list /\
    find_file ("taxid_" ++ taxid ++ "_report.csv") (files w') =
      Some (CsvFile (map CStr csv_columns :: map csv_row (keep_by_length lo hi R))) /\
    find_file ("taxid_" ++ taxid ++ "_plot.png") (files w') =
      Some (PngFile (plot_of (py_sorted_reverse seq_len (keep_by_length lo hi R)))).
Proof.
  pose proof (search_taxid_success_run tax es taxid
                (mkWorld new_retriever (stdout w) (calls w) (files w) (heap w))
                name rest n we qk Ht Hs Hn) as E1.
  pose proof (fetch_records_success_run ef pg 0 200
                (mkWorld (mkRetriever (Some we) (Some qk) (Some n))
                   ((stdout w ++ [("Searching for records with taxID: " ++ taxid)%string;
                                  ("Organism: " ++ name ++ " (TaxID: " ++ taxid ++ ")")%string;
                                  ("Found " ++ py_str_int n ++ " records for " ++ name
                                     ++ " (TaxID: " ++ taxid ++ ")")%string])
                      ++ [String (ascii_of_nat 10) "Fetching records..."])%list
                   (calls w ++ [CallTaxonomy taxid; CallESearch (search_term taxid)])%list
                   (files w) (heap w))
                we qk h R eq_refl eq_refl Hf Hp) as E2.
  cbn [self stdout calls files heap] in E1, E2.
  assert (T : py_truthy (Some n) = true) by (cbn; apply Z.eqb_neq in Hn; rewrite Hn; reflexivity).
  destruct (main_after_search tax es ef pg taxid lo hi w _ _ R _ E1 T E2 eq_refl)
    as [_ Hb].
  destruct (Hb HF) as (w3 & E & Hself & Hcalls & Hfiles).
  exists w3; split; [exact E |]; rewrite Hself, Hcalls, Hfiles; cbn [self calls].
  split; [reflexivity | split; [rewrite <- app_assoc; reflexivity |]].
  split; [| apply find_file_written].
  cbn [find_file]; rewrite report_plot_names_differ.
  unfold other_files at 1; cbn [filter fst].
  rewrite (String.eqb_sym ("taxid_" ++ taxid ++ "_report.csv")), report_plot_names_differ;
    cbn [negb].
  apply find_file_written.
Qed.

(** A run whose page fetch fails (the remote call or the parsing raises)
    after a successful search ends with "No records matched the length
    criteria." and writes no file. *)
Theorem main_fetch_failure_no_files tax es ef pg taxid lo hi w name rest n we qk e
  (Ht : tax taxid = Ok (Some name :: rest))
  (Hs : es (search_term taxid) = Ok (mkSearchReply (Some n) (Some we) (Some qk)))
  (Hn : n <> 0)
  (Hfail : ef (mkFetchRequest 0 200 we qk) = Raise e \/
           exists h, ef (mkFetchRequest 0 200 we qk) = Ok h /\ pg h = Raise e) :
  exists w',
    main tax es ef pg taxid lo hi w = (Ok tt, w') /\
    files w' = files w /\
    calls w' = (calls w ++ [CallTaxonomy taxid; CallESearch (search_term taxid);
                            CallEFetch (mkFetchRequest 0 200 we qk)])%list /\
    last (stdout w') "" = "No records matched the length criteria.".
Proof.
  pose proof (search_taxid_success_run tax es taxid
                (mkWorld new_retriever (stdout w) (calls w) (files w) (heap w))
                name rest n we qk Ht Hs Hn) as E1.
  pose proof (fetch_records_failure_run ef pg 0 200
                (mkWorld (mkRetriever (Some we) (Some qk) (Some n))
                   ((stdout w ++ [("Searching for records with taxID: " ++ taxid)%string;
                                  ("Organism: " ++ name ++ " (TaxID: " ++ taxid ++ ")")%string;
                                  ("Found " ++ py_str_int n ++ " records for " ++ name
                                     ++ " (TaxID: " ++ taxid ++ ")")%string])
                      ++ [String (ascii_of_nat 10) "Fetching records..."])%list
                   (calls w ++ [CallTaxonomy taxid; CallESearch (search_term taxid)])%list
                   (files w) (heap w))
                we qk e eq_refl eq_refl Hfail) as E2.
  cbn [self stdout calls files heap] in E1, E2.
  assert (T : py_truthy (Some n) = true) by (cbn; apply Z.eqb_neq in Hn; rewrite Hn; reflexivity).
  destruct (main_after_search tax es ef pg taxid lo hi w _ _ [] _ E1 T E2 eq_refl)
    as [Ha _].
  destruct (Ha eq_refl) as (w3 & E & _ & Hcalls & Hfiles & Hlast).
  exists w3; split; [exact E |]; rewrite Hcalls, Hfiles; cbn [calls files].
  split; [reflexivity | split; [rewrite <- app_assoc; reflexivity | exact Hlast]].
Qed.

(** Whatever the remote service and the parser do, [main] (after the
    prompts) raises nothing, and every file other than
    [taxid_{taxid}_report.csv] and [taxid_{taxid}_plot.png] is left as it
    was. *)
Theorem main_writes_only_reports tax es ef pg taxid lo hi w :
  exists w',
    main tax es ef pg taxid lo hi w = (Ok tt, w') /\
    forall name, name <> ("taxid_" ++ taxid ++ "_report.csv")%string ->
                 name <> ("taxid_" ++ taxid ++ "_plot.png")%string ->
                 find_file name (files w') = find_file name (files w).
Proof.
  destruct (main_cases tax es ef pg taxid lo hi w) as (w' & E & Hf).
  exists w'; split; [exact E |]; intros name H1 H2.
  destruct Hf as [-> | (l & _ & ->)]; [reflexivity |].
  rewrite find_file_other by exact H2.
  unfold other_files at 1; cbn [filter fst].
  apply find_file_other; exact H1.
Qed.

(** With [max_len < min_len], no record passes the filter, so [main] writes
    no file at all, whatever the remote service returns. *)
Theorem main_inverted_bounds_no_files tax es ef pg taxid lo hi w
  (Hlt : hi < lo) :
  exists w', main tax es ef pg taxid lo hi w = (Ok tt, w') /\ files w' = files w.
Proof.
  destruct (main_cases tax es ef pg taxid lo hi w) as (w' & E & Hf).
  exists w'; split; [exact E |].
  destruct Hf as [H | (l & Hne & _)]; [exact H |].
  exfalso; apply Hne, keep_by_length_inverted, Hlt.
Qed.

Lemma main_success_reports_witness :
  exists w',
    main tax_ok (esearch_hits 3) efetch_ok parse_three "9606" 10 20 world0 = (Ok tt, w') /\
    self w' = mkRetriever (Some "WE1") (Some "1") (Some 3) /\
    calls w' = [CallTaxonomy "9606"; CallESearch (search_term "9606");
                CallEFetch (mkFetchRequest 0 200 "WE1" "1")] /\
    find_file "taxid_9606_report.csv" (files w') =
      Some (CsvFile (map CStr csv_columns ::
                     map csv_row (keep_by_length 10 20 [rec_A1; rec_A2; rec_A3]))) /\
    find_file "taxid_9606_plot.png" (files w') =
      Some (PngFile (plot_of (py_sorted_reverse seq_len
                                (keep_by_length 10 20 [rec_A1; rec_A2; rec_A3])))).
Proof.
  apply (main_success_reports tax_ok (esearch_hits 3) efetch_ok parse_three "9606" 10 20
           world0 "Homo sapiens" [] 3 "WE1" "1" "LOCUS ..." [rec_A1; rec_A2; rec_A3]);
    try reflexivity.
  - lia.
  - intros H; vm_compute in H; discriminate H.
Defined.

Lemma main_fetch_failure_no_files_witness :
  exists w',
    main tax_ok (esearch_hits 3) efetch_down parse_three "9606" 10 20 world0 = (Ok tt, w') /\
    files w' = [] /\
    calls w' = [CallTaxonomy "9606"; CallESearch (search_term "9606");
                CallEFetch (mkFetchRequest 0 200 "WE1" "1")] /\
    last (stdout w') "" = "No records matched the length criteria.".
Proof.
  apply (main_fetch_failure_no_files tax_ok (esearch_hits 3) efetch_down parse_three "9606"
           10 20 world0 "Homo sapiens" [] 3 "WE1" "1" "HTTP Error 502");
    try reflexivity.
  - lia.
  - left; reflexivity.
Defined.

Lemma main_inverted_bounds_no_files_witness :
  exists w',
    main tax_ok (esearch_hits 3) efetch_ok parse_three "9606" 20 10
      (mkWorld new_retriever [] [] [("notes.txt", CsvFile [])] []) = (Ok tt, w') /\
    files w' = [("notes.txt", CsvFile [])].
Proof.
  apply (main_inverted_bounds_no_files tax_ok (esearch_hits 3) efetch_ok parse_three "9606"
           20 10 (mkWorld new_retriever [] [] [("notes.txt", CsvFile [])] [])).
  lia.
Defined.
